(** * The todo reducer of redux-delete-codealong

    A shallow embedding of the reducer [manageTodo] in its three id-carrying
    forms:

    - [Counter.manageTodo]: the reducer file of the application, which numbers
      todos with a module-level counter ([let id = 0]) and deletes by
      [action.id];
    - [Readme.manageTodo_whole]: the intermediate reducer of the lesson text,
      which creates [{id: uuid(), text}] objects but still filters with
      [todo !== action.payload];
    - [Readme.manageTodo]: the final reducer of the lesson text, the same
      with the filter [todo.id !== action.payload].

    Conventions of the embedding.

    - JavaScript values are the type [value]. The numbers the reducer computes
      are the values of an integer counter; they are embedded as [Z], which is
      exact for IEEE doubles below 2^53. Fractions, infinities and NaN are
      not represented.
    - An object is the finite map of its own enumerable properties together
      with a location that stands for its identity; [===] on objects compares
      locations. Objects are plain data: no accessors, no proxies, no
      prototype of their own. The reducer never writes to an object it was
      given, so a value carries the properties of the object it denotes.
    - A property read on [undefined] or [null] throws; this is the only
      exception the reducer can raise, and it is the [TypeError] of [result].
    - [console.log(action)] in the lesson's reducers writes to the console
      and is left out. *)

From Stdlib Require Import ZArith Lia.
From stdpp Require Import base option list strings gmap pretty.

Open Scope Z_scope.

(** ** JavaScript values *)

Module JS.

Definition loc := positive.

#[warnings="-register-all"]
Inductive value : Type :=
| VUndefined
| VNull
| VBool (b : bool)
| VNum (n : Z)
| VStr (s : string)
| VObj (l : loc) (props : gmap string value).

(** The outcome of evaluating an expression that may throw. *)
Inductive result (A : Type) : Type :=
| Ok (a : A)
| TypeError.
Arguments Ok {A} a.
Arguments TypeError {A}.

(** [a === b]. *)
Definition strict_eq (a b : value) : bool :=
  match a, b with
  | VUndefined, VUndefined => true
  | VNull, VNull => true
  | VBool x, VBool y => Bool.eqb x y
  | VNum x, VNum y => Z.eqb x y
  | VStr x, VStr y => String.eqb x y
  | VObj l _, VObj l' _ => Pos.eqb l l'
  | _, _ => false
  end.

(** [a !== b]. *)
Definition strict_neq (a b : value) : bool := negb (strict_eq a b).

(** The characters of a string as its indexed properties:
    ["ab"] has the properties [0: "a"] and [1: "b"]. *)
Fixpoint chars (i : nat) (s : string) : list (string * value) :=
  match s with
  | EmptyString => []
  | String c s' => (pretty i, VStr (String c EmptyString)) :: chars (S i) s'
  end.

(** The own enumerable properties of a value, as [Object.assign] and a
    property read see them. *)
Definition own_enumerable (v : value) : gmap string value :=
  match v with
  | VObj _ props => props
  | VStr s => list_to_map (chars 0 s)
  | _ => ∅
  end.

(** [v.k] for the property names the reducer reads ([type], [todo], [id],
    [payload], [text]); none of them is defined on a built-in prototype, so
    the read gives the own property or [undefined]. *)
Definition get_prop (v : value) (k : string) : result value :=
  match v with
  | VUndefined | VNull => TypeError
  | _ => Ok (default VUndefined (own_enumerable v !! k))
  end.

(** [Object.assign(target, ...sources)] on property maps: every source is
    copied over the target in turn, so a later source wins. *)
Definition Object_assign (target : gmap string value)
    (sources : list (gmap string value)) : gmap string value :=
  foldl (fun acc src => src ∪ acc) target sources.

Definition is_primitive (v : value) : bool :=
  match v with
  | VObj _ _ => false
  | _ => true
  end.

(** [v.k] where the read cannot throw. *)
Definition prop (v : value) (k : string) : value :=
  default VUndefined (own_enumerable v !! k).

(** The action takes the first case of the [switch], the same in every
    reducer: [action.type === 'ADD_TODO']. *)
Definition is_add (action : value) : bool :=
  match get_prop action "type" with
  | Ok ty => strict_eq ty (VStr "ADD_TODO")
  | TypeError => false
  end.

(** The values of a list are pairwise different under [!==]. *)
Fixpoint distinct (vs : list value) : bool :=
  match vs with
  | [] => true
  | v :: rest => forallb (fun w => strict_neq v w) rest && distinct rest
  end.

End JS.

(** ** The reducer of the application: a module-level counter *)

Module Counter.
Import JS.

(** A todo is the object [Object.assign] builds; this reducer reads its
    properties and never compares it by identity, so it is embedded as its
    property map. *)
Record State : Type := mkState { todos : list (gmap string value) }.

(** The default of the parameter [state]. *)
Definition initialState : State := {| todos := [] |}.

(** Evaluation inside the module: the counter [id] is threaded through, and
    an exception leaves the counter as it was when it was raised. *)
Definition M (A : Type) : Type := Z → Z * result A.

Definition ret {A} (a : A) : M A := fun id => (id, Ok a).

Definition bind {A B} (m : M A) (k : A → M B) : M B :=
  fun id =>
    match m id with
    | (id', Ok a) => k a id'
    | (id', TypeError) => (id', TypeError)
    end.

Definition lift {A} (r : result A) : M A := fun id => (id, r).

(** [id++] as a statement. *)
Definition incr_id : M unit := fun id => (id + 1, Ok tt).

(** A read of the variable [id]. *)
Definition read_id : M Z := fun id => (id, Ok id).

Notation "'let!' x ':=' m 'in' k" := (bind m (fun x => k))
  (at level 10, x name, m at level 100, k at level 200).
Notation "'do!' m 'in' k" := (bind m (fun _ => k))
  (at level 10, m at level 100, k at level 200).

(** [todo.id] on a todo of the collection. *)
Definition item_id (todo : gmap string value) : value :=
  default VUndefined (todo !! "id").

(** [todos.concat(todo)] for a todo that is a plain object: one more
    element at the end. *)
Definition concat (l : list (gmap string value)) (todo : gmap string value)
  : list (gmap string value) := l ++ [todo].

(** [manageTodo(state = {todos: []}, action)]. The argument [state] is [None]
    when the caller passes [undefined]. In the filter, [action.id] is read
    once: the read cannot throw after [action.type] has been read. *)
Definition manageTodo (state : option State) (action : value) : M State :=
  let state := default initialState state in
  let! ty := lift (get_prop action "type") in
  if strict_eq ty (VStr "ADD_TODO") then
    do! incr_id in
    let! src := lift (get_prop action "todo") in
    let! n := read_id in
    let todo := Object_assign ∅ [own_enumerable src; {[ "id" := VNum n ]}] in
    ret {| todos := concat (todos state) todo |}
  else if strict_eq ty (VStr "DELETE_TODO") then
    let! aid := lift (get_prop action "id") in
    let todos := List.filter (fun todo => strict_neq (item_id todo) aid)
                             (todos state) in
    ret {| todos := todos |}
  else
    ret state.

(** The actions the components dispatch. [l] is the identity of the action
    object. *)
Definition AddTodo (l : loc) (todo : value) : value :=
  VObj l {[ "type" := VStr "ADD_TODO"; "todo" := todo ]}.

(** [{type: 'DELETE_TODO', id: this.props.id}] of [Todo.handleOnClick]. *)
Definition DeleteTodo (l : loc) (id : value) : value :=
  VObj l {[ "type" := VStr "DELETE_TODO"; "id" := id ]}.

(** The payload of an Add of a text: [{text: text}]. *)
Definition text_todo (l : loc) (text : string) : value :=
  VObj l {[ "text" := VStr text ]}.

Definition ids (s : State) : list value := item_id <$> todos s.

(** The todos of [s'] that lie beyond the length of [s]: what a transition
    from [s] to [s'] has appended. *)
Definition created (s s' : State) : list (gmap string value) :=
  drop (length (todos s)) (todos s').

(** The module and the store that calls the reducer: the counter, the state
    the store holds, and (for the statements only) the ids given to todos so
    far, in the order they were given. *)
Record Store : Type := mkStore {
  store_id : Z;
  store_state : State;
  assigned : list value
}.

Definition initialStore : Store :=
  {| store_id := 0; store_state := initialState; assigned := [] |}.

(** One dispatch: the store keeps the state the reducer returns; when the
    reducer throws, the store keeps the state it had. *)
Definition dispatch (w : Store) (action : value) : Store :=
  match manageTodo (Some (store_state w)) action (store_id w) with
  | (id', Ok s') =>
      {| store_id := id'; store_state := s';
         assigned := assigned w ++ (item_id <$> created (store_state w) s') |}
  | (id', TypeError) =>
      {| store_id := id'; store_state := store_state w;
         assigned := assigned w |}
  end.

Definition run (actions : list value) : Store :=
  foldl dispatch initialStore actions.

(** [Todo.handleOnClick]: the component dispatches a Delete of the id it
    was given as [props.id]. *)
Definition handleOnClick (l : loc) (props_id : value) (w : Store) : Store :=
  dispatch w (DeleteTodo l props_id).

(** [v] is a number that the counter has already taken when it stands at
    [id]. *)
Definition issued (id : Z) (v : value) : Prop :=
  ∃ n, v = VNum n ∧ 1 ≤ n ≤ id.

(** What holds of the module and the store after any sequence of dispatches:
    the ids in the collection and the ids ever given are numbers the counter
    has taken, and neither list repeats an id. *)
Record store_inv (w : Store) : Prop := mkInv {
  inv_counter : 0 ≤ store_id w;
  inv_ids : Forall (issued (store_id w)) (ids (store_state w));
  inv_distinct : distinct (ids (store_state w)) = true;
  inv_assigned : Forall (issued (store_id w)) (assigned w);
  inv_assigned_distinct : distinct (assigned w) = true
}.

End Counter.

(** ** The reducers of the lesson text: ids from [uuid()] *)

Module Readme.
Import JS.

(** A todo is the object literal [{id: uuid(), text: ...}]. The intermediate
    reducer compares todos with [!==], so a todo keeps its identity [ref]
    next to its properties. *)
Record object : Type := Obj { ref : loc; props : gmap string value }.

Definition to_value (o : object) : value := VObj (ref o) (props o).

Record State : Type := mkState { todos : list object }.

Definition initialState : State := {| todos := [] |}.

(** What one call of the reducer takes from outside its arguments: the string
    that the call [uuid()] returns and the identity of the object that the
    literal creates. Neither is looked at unless the action is an Add. *)
Record Runtime : Type := mkRuntime { uuid : string; fresh : loc }.

Definition bind {A B} (r : result A) (k : A → result B) : result B :=
  match r with
  | Ok a => k a
  | TypeError => TypeError
  end.

Notation "'let!' x ':=' m 'in' k" := (bind m (fun x => k))
  (at level 10, x name, m at level 100, k at level 200).

Definition item_id (todo : object) : value :=
  default VUndefined (props todo !! "id").

Definition concat (l : list object) (todo : object) : list object :=
  l ++ [todo].

(** The case [ADD_TODO], the same in both reducers of the lesson:
    [uuid()] is called before [action.payload.text] is read. *)
Definition add_todo (rt : Runtime) (state : State) (action : value)
  : result State :=
  let id := VStr (uuid rt) in
  let! payload := get_prop action "payload" in
  let! text := get_prop payload "text" in
  let todo := {| ref := fresh rt;
                 props := {[ "id" := id; "text" := text ]} |} in
  Ok {| todos := concat (todos state) todo |}.

(** The intermediate reducer: todos are objects, the filter still compares
    the whole todo with the payload. *)
Definition manageTodo_whole (rt : Runtime) (state : option State)
    (action : value) : result State :=
  let state := default initialState state in
  let! ty := get_prop action "type" in
  if strict_eq ty (VStr "ADD_TODO") then
    add_todo rt state action
  else if strict_eq ty (VStr "DELETE_TODO") then
    let! payload := get_prop action "payload" in
    Ok {| todos := List.filter
                     (fun todo => strict_neq (to_value todo) payload)
                     (todos state) |}
  else
    Ok state.

(** The final reducer of the lesson: the filter compares [todo.id]. *)
Definition manageTodo (rt : Runtime) (state : option State)
    (action : value) : result State :=
  let state := default initialState state in
  let! ty := get_prop action "type" in
  if strict_eq ty (VStr "ADD_TODO") then
    add_todo rt state action
  else if strict_eq ty (VStr "DELETE_TODO") then
    let! payload := get_prop action "payload" in
    Ok {| todos := List.filter
                     (fun todo => strict_neq (item_id todo) payload)
                     (todos state) |}
  else
    Ok state.

(** [{type: 'ADD_TODO', payload: {text: text}}]. *)
Definition AddTodo (l l' : loc) (text : string) : value :=
  VObj l {[ "type" := VStr "ADD_TODO";
            "payload" := VObj l' {[ "text" := VStr text ]} ]}.

(** [{type: 'DELETE_TODO', payload: ...}] of [mapDispatchToProps]. *)
Definition DeleteTodo (l : loc) (payload : value) : value :=
  VObj l {[ "type" := VStr "DELETE_TODO"; "payload" := payload ]}.

Definition ids (s : State) : list value := item_id <$> todos s.

(** One dispatch with the final reducer; each call comes with what it takes
    from outside. *)
Definition dispatch (s : State) (call : Runtime * value) : State :=
  match manageTodo (fst call) (Some s) (snd call) with
  | Ok s' => s'
  | TypeError => s
  end.

Definition run (calls : list (Runtime * value)) : State :=
  foldl dispatch initialState calls.

End Readme.

(** ** The first reducer of the lesson: todos are texts *)

Module Texts.
Import JS.

(** The collection holds the texts themselves. *)
Record State : Type := mkState { todos : list value }.

Definition initialState : State := {| todos := [] |}.

Notation "'let!' x ':=' m 'in' k" := (Readme.bind m (fun x => k))
  (at level 10, x name, m at level 100, k at level 200).

(** [todos.concat(text)]. A value of this embedding is never an array (the
    only values [concat] would spread), so one element is appended. *)
Definition concat (l : list value) (text : value) : list value := l ++ [text].

(** [manageTodo] of the section "Tell the Store Which Todo to Delete". *)
Definition manageTodo (state : option State) (action : value) : result State :=
  let state := default initialState state in
  let! ty := get_prop action "type" in
  if strict_eq ty (VStr "ADD_TODO") then
    let! payload := get_prop action "payload" in
    let! text := get_prop payload "text" in
    Ok {| todos := concat (todos state) text |}
  else if strict_eq ty (VStr "DELETE_TODO") then
    let! payload := get_prop action "payload" in
    Ok {| todos := List.filter (fun todo => strict_neq todo payload)
                               (todos state) |}
  else
    Ok state.

(** One dispatch: the store keeps the state it had when the reducer
    throws. *)
Definition dispatch (s : State) (action : value) : State :=
  match manageTodo (Some s) action with
  | Ok s' => s'
  | TypeError => s
  end.

End Texts.

(** ** The components of the lesson *)

Module Container.
Import JS.

(** [mapStateToProps]: the component sees the collection as [props.todos]. *)
Definition mapStateToProps_texts (state : Texts.State) : list value :=
  Texts.todos state.

Definition mapStateToProps (state : Readme.State) : list Readme.object :=
  Readme.todos state.

(** [mapDispatchToProps]: [props.delete] hands this action to [dispatch].
    [l] is the identity of the action object. *)
Definition delete (l : loc) (todoText : value) : value :=
  VObj l {[ "type" := VStr "DELETE_TODO"; "payload" := todoText ]}.

(** The props of [<Todo delete={this.props.delete} key={id} text={todo} />];
    [delete] is the same function for every element. *)
Record TextProps : Type := mkTextProps { text_key : value; text : value }.

(** The props of [<Todo delete={this.props.delete} key={todo.id} todo={todo} />]. *)
Record TodoProps : Type := mkTodoProps { key : value; todo : Readme.object }.

(** [renderTodos] of the first container: the key is the index that [map]
    passes. *)
Definition renderTodos_texts (todos : list value) : list TextProps :=
  imap (fun id todo => {| text_key := VNum (Z.of_nat id); text := todo |}) todos.

(** [renderTodos] of the updated container. *)
Definition renderTodos (todos : list Readme.object) : list TodoProps :=
  (fun todo => {| key := Readme.item_id todo; todo := todo |}) <$> todos.

(** [onClick={() => props.delete(props.text)}]: the action dispatched. *)
Definition onClick_text (l : loc) (props : TextProps) : value :=
  delete l (text props).

(** [onClick={() => props.delete(props.todo.id)}]: the action dispatched. *)
Definition onClick (l : loc) (props : TodoProps) : value :=
  delete l (Readme.item_id (todo props)).

(** A click on the DELETE button of the [k]-th element rendered, with the
    first reducer and the first components. Nothing is rendered at [k] when
    the collection is shorter: nothing happens. *)
Definition click_text (l : loc) (k : nat) (s : Texts.State) : Texts.State :=
  match renderTodos_texts (mapStateToProps_texts s) !! k with
  | Some props => Texts.dispatch s (onClick_text l props)
  | None => s
  end.

(** The same click with the final reducer and the updated components. *)
Definition click (rt : Readme.Runtime) (l : loc) (k : nat) (s : Readme.State)
  : Readme.State :=
  match renderTodos (mapStateToProps s) !! k with
  | Some props => Readme.dispatch s (rt, onClick l props)
  | None => s
  end.

End Container.

(** * Properties *)

(** ** Strict equality and property reads *)

Section JSFacts.
Import JS.

Lemma strict_eq_sym a b : strict_eq a b = strict_eq b a.
Proof.
  destruct a, b; simpl; try reflexivity.
  - destruct b, b0; reflexivity.
  - apply Z.eqb_sym.
  - apply String.eqb_sym.
  - apply Pos.eqb_sym.
Qed.

Lemma strict_eq_str v s : strict_eq v (VStr s) = true ↔ v = VStr s.
Proof.
  destruct v; simpl; try (split; [discriminate | intros [=]]).
  rewrite String.eqb_eq. split; [intros -> | intros [= ->]]; reflexivity.
Qed.

Lemma strict_eq_num v n : strict_eq v (VNum n) = true ↔ v = VNum n.
Proof.
  destruct v; simpl; try (split; [discriminate | intros [=]]).
  rewrite Z.eqb_eq. split; [intros -> | intros [= ->]]; reflexivity.
Qed.

Lemma strict_eq_num_num n m : strict_eq (VNum n) (VNum m) = false ↔ n ≠ m.
Proof. simpl. apply Z.eqb_neq. Qed.

(** A read that succeeds gives [prop], and then every read on the same
    value succeeds. *)
Lemma get_prop_Ok v k x : get_prop v k = Ok x → x = prop v k.
Proof. destruct v; simpl; intros [=]; subst; reflexivity. Qed.

Lemma get_prop_total v k x k' :
  get_prop v k = Ok x → get_prop v k' = Ok (prop v k').
Proof. destruct v; simpl; intros [=]; reflexivity. Qed.

Lemma Object_assign_id (m : gmap string value) (v : value) :
  Object_assign ∅ [m; {[ "id" := v ]}] = <["id" := v]> m.
Proof.
  unfold Object_assign; simpl.
  rewrite (right_id_L ∅ (∪)). symmetry. apply insert_union_singleton_l.
Qed.

Lemma distinct_app vs v :
  distinct (vs ++ [v]) = distinct vs && forallb (fun w => strict_neq w v) vs.
Proof.
  induction vs as [|x vs IH]; simpl; [reflexivity|].
  rewrite forallb_app, IH. simpl.
  destruct (strict_neq x v), (forallb (λ w, strict_neq x w) vs),
    (distinct vs); simpl; try reflexivity.
  all: rewrite ?andb_false_r; reflexivity.
Qed.

End JSFacts.

(** ** The reducer with the counter, case by case *)

Section CounterCases.
Import JS Counter.

Lemma filter_sublist {A} (p : A → bool) (l : list A) :
  sublist (List.filter p l) l.
Proof.
  induction l as [|x l IH]; simpl; [constructor|].
  destruct (p x); [apply sublist_skip | apply sublist_cons]; exact IH.
Qed.

Lemma filter_all {A} (p : A → bool) (l : list A) :
  forallb p l = true → List.filter p l = l.
Proof.
  induction l as [|x l IH]; simpl; [reflexivity|].
  destruct (p x); simpl; [|discriminate]. intros H. f_equal. auto.
Qed.

Lemma filter_twice {A} (p : A → bool) (l : list A) :
  List.filter p (List.filter p l) = List.filter p l.
Proof.
  induction l as [|x l IH]; simpl; [reflexivity|].
  destruct (p x) eqn:E; simpl; rewrite ?E, IH; reflexivity.
Qed.

Lemma manageTodo_default_state a id :
  manageTodo None a id = manageTodo (Some initialState) a id.
Proof. reflexivity. Qed.

Lemma manageTodo_throws st a id :
  get_prop a "type" = TypeError → manageTodo st a id = (id, TypeError).
Proof. intros H. unfold manageTodo, bind, lift. rewrite H. reflexivity. Qed.

Lemma manageTodo_ADD st a id :
  get_prop a "type" = Ok (VStr "ADD_TODO") →
  manageTodo st a id =
    (id + 1,
     Ok {| todos := todos (default initialState st) ++
                    [<["id" := VNum (id + 1)]> (own_enumerable (prop a "todo"))] |}).
Proof.
  intros H. unfold manageTodo, bind, lift, incr_id, read_id, ret, concat.
  rewrite H, (get_prop_total _ _ _ "todo" H). cbn -[Object_assign].
  rewrite Object_assign_id. reflexivity.
Qed.

Lemma manageTodo_DELETE st a id :
  get_prop a "type" = Ok (VStr "DELETE_TODO") →
  manageTodo st a id =
    (id,
     Ok {| todos := List.filter
                      (fun todo => strict_neq (item_id todo) (prop a "id"))
                      (todos (default initialState st)) |}).
Proof.
  intros H. unfold manageTodo, bind, lift, ret.
  rewrite H, (get_prop_total _ _ _ "id" H). reflexivity.
Qed.

Lemma manageTodo_other st a id ty :
  get_prop a "type" = Ok ty →
  ty ≠ VStr "ADD_TODO" → ty ≠ VStr "DELETE_TODO" →
  manageTodo st a id = (id, Ok (default initialState st)).
Proof.
  intros H Ha Hd. unfold manageTodo, bind, lift, ret. rewrite H.
  destruct (strict_eq ty (VStr "ADD_TODO")) eqn:E1.
  { apply strict_eq_str in E1. contradiction. }
  destruct (strict_eq ty (VStr "DELETE_TODO")) eqn:E2.
  { apply strict_eq_str in E2. contradiction. }
  reflexivity.
Qed.

Lemma AddTodo_type l p : get_prop (AddTodo l p) "type" = Ok (VStr "ADD_TODO").
Proof. reflexivity. Qed.

Lemma AddTodo_todo l p : prop (AddTodo l p) "todo" = p.
Proof. reflexivity. Qed.

Lemma DeleteTodo_type l i :
  get_prop (DeleteTodo l i) "type" = Ok (VStr "DELETE_TODO").
Proof. reflexivity. Qed.

Lemma DeleteTodo_id l i : prop (DeleteTodo l i) "id" = i.
Proof. reflexivity. Qed.

End CounterCases.

(** ** The reducers of the lesson, case by case *)

Section ReadmeCases.
Import JS Readme.

Lemma readme_ADD rt st a :
  get_prop a "type" = Ok (VStr "ADD_TODO") →
  manageTodo rt st a = add_todo rt (default initialState st) a.
Proof. intros H. unfold manageTodo, bind. rewrite H. reflexivity. Qed.

Lemma readme_add_text rt s l l' text :
  add_todo rt s (AddTodo l l' text) =
    Ok {| todos := todos s ++
                   [{| ref := fresh rt;
                       props := {[ "id" := VStr (uuid rt);
                                   "text" := VStr text ]} |}] |}.
Proof. reflexivity. Qed.

Lemma readme_DELETE rt st a :
  get_prop a "type" = Ok (VStr "DELETE_TODO") →
  manageTodo rt st a =
    Ok {| todos := List.filter
                     (fun todo => strict_neq (item_id todo) (prop a "payload"))
                     (todos (default initialState st)) |}.
Proof.
  intros H. unfold manageTodo, bind.
  rewrite H, (get_prop_total _ _ _ "payload" H). reflexivity.
Qed.

Lemma readme_whole_DELETE rt st a :
  get_prop a "type" = Ok (VStr "DELETE_TODO") →
  manageTodo_whole rt st a =
    Ok {| todos := List.filter
                     (fun todo => strict_neq (to_value todo) (prop a "payload"))
                     (todos (default initialState st)) |}.
Proof.
  intros H. unfold manageTodo_whole, bind.
  rewrite H, (get_prop_total _ _ _ "payload" H). reflexivity.
Qed.

Lemma readme_other rt st a ty :
  get_prop a "type" = Ok ty →
  ty ≠ VStr "ADD_TODO" → ty ≠ VStr "DELETE_TODO" →
  manageTodo rt st a = Ok (default initialState st).
Proof.
  intros H Ha Hd. unfold manageTodo, bind. rewrite H.
  destruct (strict_eq ty (VStr "ADD_TODO")) eqn:E1.
  { apply strict_eq_str in E1. contradiction. }
  destruct (strict_eq ty (VStr "DELETE_TODO")) eqn:E2.
  { apply strict_eq_str in E2. contradiction. }
  reflexivity.
Qed.

Lemma readme_throws rt st a :
  get_prop a "type" = TypeError → manageTodo rt st a = TypeError.
Proof. intros H. unfold manageTodo, bind. rewrite H. reflexivity. Qed.

Lemma readme_DeleteTodo_type l p :
  get_prop (DeleteTodo l p) "type" = Ok (VStr "DELETE_TODO").
Proof. reflexivity. Qed.

Lemma readme_DeleteTodo_payload l p : prop (DeleteTodo l p) "payload" = p.
Proof. reflexivity. Qed.

Lemma readme_AddTodo_type l l' text :
  get_prop (AddTodo l l' text) "type" = Ok (VStr "ADD_TODO").
Proof. reflexivity. Qed.

End ReadmeCases.

(** ** Delete *)

Section Delete.
Import JS.

Lemma filter_no_match {A} (p : A → bool) (l : list A) :
  (∀ x, x ∈ l → p x = true) → List.filter p l = l.
Proof.
  intros H. apply filter_all, forallb_forall. intros x Hx.
  apply H, list_elem_of_In, Hx.
Qed.

Lemma elem_of_filter_bool {A} (p : A → bool) (l : list A) x :
  x ∈ List.filter p l ↔ x ∈ l ∧ p x = true.
Proof. rewrite !list_elem_of_In. apply filter_In. Qed.

Lemma strict_neq_true a b : strict_neq a b = true ↔ strict_eq a b = false.
Proof. unfold strict_neq. destruct (strict_eq a b); simpl; split; congruence. Qed.

(** C1. Delete(id) returns a state whose collection holds exactly the todos
    of the prior collection whose id is not [===] to the given id, and when
    no todo has that id the state returned is the one given. Both for the
    reducer with the counter ([action.id]) and for the final reducer of the
    lesson ([action.payload]). *)
Theorem delete_keeps_exactly_the_others :
  (∀ (s : Counter.State) (l : loc) (i : value) (id : Z),
     ∃ s', Counter.manageTodo (Some s) (Counter.DeleteTodo l i) id = (id, Ok s')
       ∧ (∀ x, x ∈ Counter.todos s' ↔
               x ∈ Counter.todos s ∧ strict_eq (Counter.item_id x) i = false)
       ∧ ((∀ x, x ∈ Counter.todos s → strict_eq (Counter.item_id x) i = false)
          → s' = s))
  ∧
  (∀ (rt : Readme.Runtime) (s : Readme.State) (l : loc) (i : value),
     ∃ s', Readme.manageTodo rt (Some s) (Readme.DeleteTodo l i) = Ok s'
       ∧ (∀ x, x ∈ Readme.todos s' ↔
               x ∈ Readme.todos s ∧ strict_eq (Readme.item_id x) i = false)
       ∧ ((∀ x, x ∈ Readme.todos s → strict_eq (Readme.item_id x) i = false)
          → s' = s)).
Proof.
  split.
  - intros s l i id. eexists. split; [|split].
    + rewrite manageTodo_DELETE by apply DeleteTodo_type.
      rewrite DeleteTodo_id. reflexivity.
    + intros x. simpl. rewrite elem_of_filter_bool, strict_neq_true. tauto.
    + intros H. destruct s as [ts]. simpl in *. f_equal.
      apply filter_no_match. intros x Hx. apply strict_neq_true, H, Hx.
  - intros rt s l i. eexists. split; [|split].
    + rewrite readme_DELETE by apply readme_DeleteTodo_type.
      rewrite readme_DeleteTodo_payload. reflexivity.
    + intros x. simpl. rewrite elem_of_filter_bool, strict_neq_true. tauto.
    + intros H. destruct s as [ts]. simpl in *. f_equal.
      apply filter_no_match. intros x Hx. apply strict_neq_true, H, Hx.
Qed.

(** C6. Delete(id) applied to the result of Delete(id) returns that result
    again. *)
Theorem delete_idempotent (s : Counter.State) (l : loc) (i : value) (id : Z) :
  ∃ s1, Counter.manageTodo (Some s) (Counter.DeleteTodo l i) id = (id, Ok s1)
      ∧ Counter.manageTodo (Some s1) (Counter.DeleteTodo l i) id = (id, Ok s1).
Proof.
  eexists. split.
  - rewrite manageTodo_DELETE by apply DeleteTodo_type. reflexivity.
  - rewrite manageTodo_DELETE by apply DeleteTodo_type. simpl.
    rewrite filter_twice. reflexivity.
Qed.

(** C8. The todos that survive Delete(id) are a subsequence of the input
    collection: they keep their relative order. *)
Theorem delete_keeps_order (s : Counter.State) (l : loc) (i : value) (id : Z) :
  ∃ s', Counter.manageTodo (Some s) (Counter.DeleteTodo l i) id = (id, Ok s')
      ∧ sublist (Counter.todos s') (Counter.todos s).
Proof.
  eexists. split.
  - rewrite manageTodo_DELETE by apply DeleteTodo_type. reflexivity.
  - simpl. apply filter_sublist.
Qed.

End Delete.

(** ** Unrecognized actions *)

Section Unrecognized.
Import JS Counter.

(** C7 as stated fails: an action that is itself [undefined] (or [null]) is
    malformed and has no discriminant that could be one of the two tags, yet
    the reducer does not return the state: the read [action.type] throws. *)
Lemma undefined_action_raises :
  let s := {| todos := [ {[ "id" := VNum 1; "text" := VStr "buy milk" ]} ] |} in
  manageTodo (Some s) VUndefined 1 = (1, TypeError)
  ∧ manageTodo (Some s) VNull 1 = (1, TypeError)
  ∧ manageTodo (Some s) VUndefined 1 ≠ (1, Ok s).
Proof.
  split; [reflexivity|]. split; [reflexivity|]. discriminate.
Qed.

(** C7, amended. For every action other than [undefined] and [null] whose
    discriminant [action.type] is neither ['ADD_TODO'] nor ['DELETE_TODO']
    (any other string, [undefined] of an action without the field, a number,
    an object, ...; the action may itself be a number, a string or a
    boolean), the reducer returns the state it was given, does not throw
    and leaves the counter alone. *)
Theorem unrecognized_action_is_identity
    (s : State) (action : value) (id : Z) :
  action ≠ VUndefined →
  action ≠ VNull →
  prop action "type" ≠ VStr "ADD_TODO" →
  prop action "type" ≠ VStr "DELETE_TODO" →
  manageTodo (Some s) action id = (id, Ok s).
Proof.
  intros Hu Hn Ha Hd.
  assert (Hty : get_prop action "type" = Ok (prop action "type")).
  { destruct action; try reflexivity; contradiction. }
  apply (manageTodo_other (Some s) _ _ _ Hty Ha Hd).
Qed.

Lemma unrecognized_action_is_identity_witness :
  manageTodo (Some {| todos := [ {[ "id" := VNum 1; "text" := VStr "buy milk" ]} ] |})
             (VObj 1%positive {[ "kind" := VStr "ADD_TODO" ]}) 1
  = (1, Ok {| todos := [ {[ "id" := VNum 1; "text" := VStr "buy milk" ]} ] |}).
Proof.
  apply unrecognized_action_is_identity; discriminate.
Defined.

(** The first call of a store passes [undefined] for the state: the default
    of the parameter comes back. *)
Lemma unrecognized_action_initial (action ty : value) (id : Z) :
  get_prop action "type" = Ok ty →
  ty ≠ VStr "ADD_TODO" →
  ty ≠ VStr "DELETE_TODO" →
  manageTodo None action id = (id, Ok initialState).
Proof. intros H Ha Hd. apply (manageTodo_other None _ _ ty H Ha Hd). Qed.

(** An action that is itself [undefined] or [null] has no discriminant to
    read: [action.type] throws. *)
Lemma no_action_throws (st : option State) (id : Z) :
  manageTodo st VUndefined id = (id, TypeError)
  ∧ manageTodo st VNull id = (id, TypeError).
Proof. split; apply manageTodo_throws; reflexivity. Qed.

End Unrecognized.

(** ** Add *)

Section Add.
Import JS.

(** C5. Add(text) does not throw, for any state and any text, the empty
    string included. The collection returned is the prior collection
    followed by one new todo, which carries the text and the identifier
    generated by the call: the incremented counter in the reducer of the
    application, the result of [uuid()] in the reducers of the lesson. *)
Theorem add_appends_one_item :
  (∀ (s : Counter.State) (l l' : loc) (text : string) (id : Z),
     ∃ todo,
       Counter.manageTodo (Some s)
         (Counter.AddTodo l (Counter.text_todo l' text)) id
       = (id + 1, Ok {| Counter.todos := Counter.todos s ++ [todo] |})
       ∧ todo !! "text" = Some (VStr text)
       ∧ todo !! "id" = Some (VNum (id + 1)))
  ∧
  (∀ (rt : Readme.Runtime) (s : Readme.State) (l l' : loc) (text : string),
     ∃ todo,
       Readme.manageTodo rt (Some s) (Readme.AddTodo l l' text)
       = Ok {| Readme.todos := Readme.todos s ++ [todo] |}
       ∧ Readme.props todo !! "text" = Some (VStr text)
       ∧ Readme.props todo !! "id" = Some (VStr (Readme.uuid rt))
       ∧ Readme.ref todo = Readme.fresh rt).
Proof.
  split.
  - intros s l l' text id. eexists. split; [|split].
    + rewrite manageTodo_ADD by apply AddTodo_type.
      rewrite AddTodo_todo. reflexivity.
    + simpl. rewrite lookup_insert_ne by discriminate.
      apply lookup_singleton_eq.
    + apply lookup_insert_eq.
  - intros rt s l l' text. eexists. split; [|split; [|split]].
    + rewrite readme_ADD by apply readme_AddTodo_type.
      simpl. apply readme_add_text.
    + simpl. rewrite lookup_insert_ne by discriminate.
      apply lookup_singleton_eq.
    + simpl. apply lookup_insert_eq.
    + reflexivity.
Qed.

(** The example of the specification, on the reducer with the counter. *)
Example spec_example :
  let milk := Counter.AddTodo 1%positive (Counter.text_todo 2%positive "buy milk") in
  let dog := Counter.AddTodo 3%positive (Counter.text_todo 4%positive "walk dog") in
  let w := Counter.run [milk; dog; Counter.DeleteTodo 5%positive (VNum 1)] in
  Counter.store_state w
    = {| Counter.todos := [ {[ "id" := VNum 2; "text" := VStr "walk dog" ]} ] |}
  ∧ Counter.store_state
      (Counter.dispatch w (Counter.DeleteTodo 6%positive (VNum 99)))
    = Counter.store_state w.
Proof. vm_compute. split; reflexivity. Qed.

End Add.

(** ** The intermediate reducer of the lesson *)

Section WholeItemFilter.
Import JS Readme.

Lemma object_neq_primitive (o : object) (p : value) :
  is_primitive p = true → strict_neq (to_value o) p = true.
Proof. destruct p; simpl; try reflexivity. discriminate. Qed.

(** C9. With todos stored as objects and the filter [todo !== action.payload],
    a Delete whose payload is an id (a string, a number, any primitive)
    removes nothing; the final reducer, given the same state and action,
    does remove the todo with that id. *)
Theorem whole_item_delete_removes_nothing :
  (∀ (rt : Runtime) (s : State) (l : loc) (payload : value),
     is_primitive payload = true →
     manageTodo_whole rt (Some s) (DeleteTodo l payload) = Ok s)
  ∧
  (∃ (rt : Runtime) (s : State) (l : loc) (payload : value),
     is_primitive payload = true
     ∧ manageTodo rt (Some s) (DeleteTodo l payload) = Ok initialState
     ∧ manageTodo_whole rt (Some s) (DeleteTodo l payload) = Ok s
     ∧ s ≠ initialState).
Proof.
  split.
  - intros rt s l payload Hp.
    rewrite readme_whole_DELETE by apply readme_DeleteTodo_type.
    rewrite readme_DeleteTodo_payload. destruct s as [ts]. simpl. do 2 f_equal.
    apply filter_all, forallb_forall. intros o _.
    apply object_neq_primitive, Hp.
  - exists {| uuid := "u2"; fresh := 9%positive |}.
    exists {| todos := [ {| ref := 1%positive;
                            props := {[ "id" := VStr "u1";
                                        "text" := VStr "buy milk" ]} |} ] |}.
    exists 2%positive, (VStr "u1").
    split; [reflexivity|]. split; [reflexivity|]. split; [reflexivity|].
    discriminate.
Qed.

Lemma whole_item_delete_removes_nothing_witness :
  let s := {| todos := [ {| ref := 1%positive;
                            props := {[ "id" := VStr "u1";
                                        "text" := VStr "buy milk" ]} |} ] |} in
  is_primitive (VStr "u1") = true
  ∧ manageTodo_whole {| uuid := "u2"; fresh := 9%positive |} (Some s)
      (DeleteTodo 2%positive (VStr "u1")) = Ok s.
Proof.
  split; [reflexivity|].
  apply (proj1 whole_item_delete_removes_nothing). reflexivity.
Defined.

End WholeItemFilter.

(** ** The store: what every sequence of dispatches preserves *)

Section StoreInvariant.
Import JS Counter.

Lemma forallb_sublist {A} (p : A → bool) (l1 l2 : list A) :
  sublist l1 l2 → forallb p l2 = true → forallb p l1 = true.
Proof.
  induction 1 as [|x l1 l2 _ IH|x l1 l2 _ IH]; simpl; [done| |].
  - rewrite !andb_true_iff. intros [? ?]. auto.
  - rewrite andb_true_iff. intros [? ?]. auto.
Qed.

Lemma distinct_sublist (l1 l2 : list value) :
  sublist l1 l2 → distinct l2 = true → distinct l1 = true.
Proof.
  induction 1 as [|x l1 l2 Hs IH|x l1 l2 _ IH]; simpl; [done| |].
  - rewrite !andb_true_iff. intros [Hx Hd]. split; [|auto].
    exact (forallb_sublist _ _ _ Hs Hx).
  - rewrite andb_true_iff. intros [_ Hd]. auto.
Qed.

Lemma distinct_filter (p : gmap string value → bool) (l : list (gmap string value)) :
  distinct (item_id <$> l) = true →
  distinct (item_id <$> List.filter p l) = true.
Proof.
  apply distinct_sublist. apply (fmap_sublist item_id), filter_sublist.
Qed.

Lemma issued_mono id id' v : id ≤ id' → issued id v → issued id' v.
Proof. intros Hle (n & -> & Hn). exists n. split; [done | lia]. Qed.

(** A number the counter has taken is not the next one. *)
Lemma issued_not_next id v : issued id v → strict_neq v (VNum (id + 1)) = true.
Proof.
  intros (n & -> & Hn). apply strict_neq_true, strict_eq_num_num. lia.
Qed.

Lemma issued_all_not_next id vs :
  Forall (issued id) vs → forallb (fun w => strict_neq w (VNum (id + 1))) vs = true.
Proof.
  intros H. apply forallb_forall. intros v Hv.
  rewrite Forall_forall in H. apply issued_not_next, H, list_elem_of_In, Hv.
Qed.

Lemma created_append s x : created s {| todos := todos s ++ [x] |} = [x].
Proof. unfold created. simpl. apply drop_app_length. Qed.

Lemma created_filter s p : created s {| todos := List.filter p (todos s) |} = [].
Proof. unfold created. simpl. apply drop_ge, filter_length_le. Qed.

Lemma created_same s : created s s = [].
Proof. unfold created. apply drop_all. Qed.

Lemma item_id_insert (m : gmap string value) v :
  item_id (<["id" := v]> m) = v.
Proof. unfold item_id. rewrite lookup_insert_eq. reflexivity. Qed.

(** The three things a dispatch can do to the store. *)
Lemma dispatch_cases (w : Store) (a : value) :
  (is_add a = false ∧ dispatch w a = w)
  ∨ (is_add a = true ∧ ∃ todo,
       item_id todo = VNum (store_id w + 1)
       ∧ dispatch w a =
           {| store_id := store_id w + 1;
              store_state := {| todos := todos (store_state w) ++ [todo] |};
              assigned := assigned w ++ [VNum (store_id w + 1)] |})
  ∨ (is_add a = false ∧ ∃ p,
       dispatch w a =
           {| store_id := store_id w;
              store_state := {| todos := List.filter p (todos (store_state w)) |};
              assigned := assigned w |}).
Proof.
  destruct w as [id s log]. unfold dispatch, is_add. simpl.
  destruct (get_prop a "type") as [ty|] eqn:Hty.
  - destruct (strict_eq ty (VStr "ADD_TODO")) eqn:E1.
    { apply strict_eq_str in E1. subst ty. right. left. split; [done|].
      eexists. split; [apply item_id_insert|].
      rewrite (manageTodo_ADD _ _ _ Hty). simpl.
      rewrite created_append. simpl. rewrite item_id_insert. reflexivity. }
    destruct (strict_eq ty (VStr "DELETE_TODO")) eqn:E2.
    { apply strict_eq_str in E2. subst ty. right. right. split; [done|].
      eexists. rewrite (manageTodo_DELETE _ _ _ Hty). simpl.
      rewrite created_filter. simpl. rewrite (right_id_L [] (++)).
      reflexivity. }
    left. split; [done|].
    rewrite (manageTodo_other _ _ _ ty Hty).
    + simpl. rewrite created_same. simpl. rewrite (right_id_L [] (++)).
      reflexivity.
    + intros ->. discriminate.
    + intros ->. discriminate.
  - left. split; [done|]. rewrite (manageTodo_throws _ _ _ Hty). reflexivity.
Qed.

Lemma store_inv_initial : store_inv initialStore.
Proof. split; simpl; try done; constructor. Qed.

Lemma store_inv_dispatch w a : store_inv w → store_inv (dispatch w a).
Proof.
  intros [Hc Hids Hd Hlog Hld].
  destruct (dispatch_cases w a) as [[_ ->]|[(_ & todo & Hid & ->)|(_ & p & ->)]].
  - split; assumption.
  - split; simpl.
    + lia.
    + unfold ids. simpl. rewrite fmap_app. simpl. rewrite Hid.
      apply Forall_app. split.
      * eapply Forall_impl; [exact Hids|]. intros v. apply issued_mono. lia.
      * constructor; [|constructor]. eexists. split; [reflexivity|]. lia.
    + unfold ids. simpl. rewrite fmap_app. simpl. rewrite Hid.
      rewrite distinct_app. apply andb_true_iff. split; [exact Hd|].
      apply issued_all_not_next, Hids.
    + apply Forall_app. split.
      * eapply Forall_impl; [exact Hlog|]. intros v. apply issued_mono. lia.
      * constructor; [|constructor]. eexists. split; [reflexivity|]. lia.
    + rewrite distinct_app. apply andb_true_iff. split; [exact Hld|].
      apply issued_all_not_next, Hlog.
  - split; simpl; try assumption.
    + unfold ids in *. simpl. rewrite Forall_forall in *.
      intros v Hv. apply Hids. eapply elem_of_sublist; [exact Hv|].
      apply (fmap_sublist item_id), filter_sublist.
    + apply distinct_filter, Hd.
Qed.

Lemma run_snoc acts a : run (acts ++ [a]) = dispatch (run acts) a.
Proof. unfold run. rewrite foldl_app. reflexivity. Qed.

Lemma store_inv_run acts : store_inv (run acts).
Proof.
  induction acts as [|a acts IH] using rev_ind.
  - apply store_inv_initial.
  - rewrite run_snoc. apply store_inv_dispatch, IH.
Qed.

(** The counter never exceeds the number of dispatches, so it stays in the
    range where a double holds every integer for any run shorter than 2^53
    actions. *)
Lemma counter_le_dispatches acts : store_id (run acts) ≤ Z.of_nat (length acts).
Proof.
  induction acts as [|a acts IH] using rev_ind; [done|].
  rewrite run_snoc, length_app, Nat2Z.inj_add. simpl.
  destruct (dispatch_cases (run acts) a) as [[_ ->]|[(_ & ? & _ & ->)|(_ & ? & ->)]];
    simpl; lia.
Qed.

End StoreInvariant.

(** ** Uniqueness of ids *)

Section Uniqueness.
Import JS.

(** [distinct] says what it should: two different positions never hold
    values that are [===]. *)
Lemma distinct_pairwise (vs : list value) :
  distinct vs = true ↔
  ∀ (i j : nat) x y, vs !! i = Some x → vs !! j = Some y → i ≠ j →
                     strict_eq x y = false.
Proof.
  induction vs as [|v vs IH]; simpl.
  - split; [intros _ i j x y Hi | reflexivity]. destruct i; discriminate.
  - rewrite andb_true_iff, forallb_forall, IH. split.
    + intros [Hv Hvs] i j x y Hi Hj Hne.
      destruct i as [|i], j as [|j]; simpl in *.
      * contradiction.
      * injection Hi as <-. apply strict_neq_true, Hv.
        apply list_elem_of_In, list_elem_of_lookup. eauto.
      * injection Hj as <-. rewrite strict_eq_sym. apply strict_neq_true, Hv.
        apply list_elem_of_In, list_elem_of_lookup. eauto.
      * apply (Hvs i j); auto.
    + intros H. split.
      * intros y Hy. apply list_elem_of_In, list_elem_of_lookup in Hy as [j Hj].
        apply strict_neq_true. apply (H 0%nat (S j)); auto.
      * intros i j x y Hi Hj Hne. apply (H (S i) (S j)); auto.
Qed.

Lemma readme_item_id_new l u t :
  Readme.item_id {| Readme.ref := l;
                    Readme.props := {[ "id" := VStr u; "text" := t ]} |}
  = VStr u.
Proof. unfold Readme.item_id. simpl. rewrite lookup_insert_eq. reflexivity. Qed.

(** The three things a dispatch of the final reducer of the lesson can do. *)
Lemma readme_dispatch_cases (s : Readme.State) (rt : Readme.Runtime) (a : value) :
  Readme.dispatch s (rt, a) = s
  ∨ (∃ todo, Readme.item_id todo = VStr (Readme.uuid rt)
       ∧ Readme.dispatch s (rt, a)
         = {| Readme.todos := Readme.todos s ++ [todo] |})
  ∨ (∃ p, Readme.dispatch s (rt, a)
         = {| Readme.todos := List.filter p (Readme.todos s) |}).
Proof.
  unfold Readme.dispatch. simpl.
  destruct (get_prop a "type") as [ty|] eqn:Hty.
  - destruct (strict_eq ty (VStr "ADD_TODO")) eqn:E1.
    { apply strict_eq_str in E1. subst ty.
      rewrite (readme_ADD _ _ _ Hty). simpl.
      unfold Readme.add_todo, Readme.bind.
      destruct (get_prop a "payload") as [p|]; [|by left].
      destruct (get_prop p "text") as [t|]; [|by left].
      right. left. eexists. split; [apply readme_item_id_new|]. reflexivity. }
    destruct (strict_eq ty (VStr "DELETE_TODO")) eqn:E2.
    { apply strict_eq_str in E2. subst ty.
      rewrite (readme_DELETE _ _ _ Hty). right. right. eexists. reflexivity. }
    left. rewrite (readme_other _ _ _ ty Hty); [reflexivity| |].
    + intros ->. discriminate.
    + intros ->. discriminate.
  - left. rewrite (readme_throws _ _ _ Hty). reflexivity.
Qed.

Lemma readme_run_snoc calls c :
  Readme.run (calls ++ [c]) = Readme.dispatch (Readme.run calls) c.
Proof. unfold Readme.run. rewrite foldl_app. reflexivity. Qed.

Lemma readme_distinct_filter (p : Readme.object → bool) (l : list Readme.object) :
  distinct (Readme.item_id <$> l) = true →
  distinct (Readme.item_id <$> List.filter p l) = true.
Proof.
  apply distinct_sublist. apply (fmap_sublist Readme.item_id), filter_sublist.
Qed.

(** With [uuid()] returning a different string at every call, every id in
    the collection is one of the strings returned so far and no id is
    repeated. *)
Lemma readme_run_ids (calls : list (Readme.Runtime * value)) :
  NoDup ((fun c => Readme.uuid (fst c)) <$> calls) →
  Forall (fun v => ∃ u, v = VStr u
                        ∧ u ∈ ((fun c => Readme.uuid (fst c)) <$> calls))
         (Readme.ids (Readme.run calls))
  ∧ distinct (Readme.ids (Readme.run calls)) = true.
Proof.
  induction calls as [|[rt a] calls IH] using rev_ind.
  - intros _. split; [constructor | reflexivity].
  - rewrite fmap_app. simpl. intros Hnd.
    apply NoDup_app in Hnd as (Hnd & Hfresh & _).
    destruct (IH Hnd) as [Hids Hd]. rewrite readme_run_snoc.
    assert (Hweak : ∀ s, Forall (fun v => ∃ u, v = VStr u
              ∧ u ∈ ((fun c => Readme.uuid (fst c)) <$> calls)) s →
            Forall (fun v => ∃ u, v = VStr u
              ∧ u ∈ ((fun c => Readme.uuid (fst c)) <$> calls)
                    ++ [Readme.uuid rt]) s).
    { intros s Hs. eapply Forall_impl; [exact Hs|]. intros v (u & -> & Hu).
      exists u. split; [done|]. apply elem_of_app. by left. }
    destruct (readme_dispatch_cases (Readme.run calls) rt a)
      as [->|[(todo & Hid & ->)|(p & ->)]].
    + split; [apply Hweak, Hids | exact Hd].
    + unfold Readme.ids in *. simpl. rewrite fmap_app. simpl. rewrite Hid.
      split.
      * apply Forall_app. split; [apply Hweak, Hids|].
        constructor; [|constructor]. eexists. split; [reflexivity|].
        apply elem_of_app. right. apply list_elem_of_singleton. reflexivity.
      * rewrite distinct_app. apply andb_true_iff. split; [exact Hd|].
        apply forallb_forall. intros v Hv. apply list_elem_of_In in Hv.
        rewrite Forall_forall in Hids. destruct (Hids v Hv) as (u & -> & Hu).
        apply strict_neq_true. simpl. apply String.eqb_neq. intros ->.
        apply (Hfresh _ Hu). apply list_elem_of_singleton. reflexivity.
    + unfold Readme.ids in *. simpl. split.
      * apply Hweak. rewrite Forall_forall in *. intros v Hv. apply Hids.
        eapply elem_of_sublist; [exact Hv|].
        apply (fmap_sublist Readme.item_id), filter_sublist.
      * apply readme_distinct_filter, Hd.
Qed.

(** C2. In every state the store reaches from the initial empty collection
    by dispatching any actions (Adds, Deletes, unrecognized ones, in any
    order), the ids of the todos are pairwise different, and so they are
    after one more dispatch of any action. For the reducer with the counter
    this holds outright; for the final reducer of the lesson it holds when
    the calls of [uuid()] return pairwise different strings. *)
Theorem reachable_ids_distinct :
  (∀ (actions : list value),
     let w := Counter.run actions in
     distinct (Counter.ids (Counter.store_state w)) = true
     ∧ ∀ a, distinct (Counter.ids (Counter.store_state (Counter.dispatch w a)))
            = true)
  ∧
  (∀ (calls : list (Readme.Runtime * value)) (c : Readme.Runtime * value),
     NoDup ((fun c => Readme.uuid (fst c)) <$> (calls ++ [c])) →
     distinct (Readme.ids (Readme.run calls)) = true
     ∧ distinct (Readme.ids (Readme.dispatch (Readme.run calls) c)) = true).
Proof.
  split.
  - intros actions w. split.
    + apply Counter.inv_distinct, store_inv_run.
    + intros a. apply Counter.inv_distinct, store_inv_dispatch, store_inv_run.
  - intros calls c Hnd. split.
    + apply readme_run_ids. rewrite fmap_app in Hnd.
      apply NoDup_app in Hnd. tauto.
    + rewrite <- readme_run_snoc. apply readme_run_ids, Hnd.
Qed.

Lemma reachable_ids_distinct_witness :
  let calls := [ ({| Readme.uuid := "u1"; Readme.fresh := 1%positive |},
                  Readme.AddTodo 10%positive 11%positive "buy milk");
                 ({| Readme.uuid := "u2"; Readme.fresh := 2%positive |},
                  Readme.AddTodo 12%positive 13%positive "walk dog") ] in
  let c := ({| Readme.uuid := "u3"; Readme.fresh := 3%positive |},
            Readme.DeleteTodo 14%positive (VStr "u1")) in
  distinct (Readme.ids (Readme.run calls)) = true
  ∧ distinct (Readme.ids (Readme.dispatch (Readme.run calls) c)) = true.
Proof.
  apply (proj2 reachable_ids_distinct). compute_done.
Defined.

End Uniqueness.

(** ** The counter *)

Section CounterIds.
Import JS Counter.

Lemma manageTodo_counter st a id :
  fst (manageTodo st a id) = if is_add a then id + 1 else id.
Proof.
  unfold is_add. destruct (get_prop a "type") as [ty|] eqn:Hty.
  - destruct (strict_eq ty (VStr "ADD_TODO")) eqn:E1.
    { apply strict_eq_str in E1. subst ty.
      rewrite (manageTodo_ADD _ _ _ Hty). reflexivity. }
    destruct (strict_eq ty (VStr "DELETE_TODO")) eqn:E2.
    { apply strict_eq_str in E2. subst ty.
      rewrite (manageTodo_DELETE _ _ _ Hty). reflexivity. }
    rewrite (manageTodo_other _ _ _ ty Hty); [reflexivity| |].
    + intros ->. discriminate.
    + intros ->. discriminate.
  - rewrite (manageTodo_throws _ _ _ Hty). reflexivity.
Qed.

Lemma dispatch_AddTodo w l payload :
  dispatch w (AddTodo l payload) =
    {| store_id := store_id w + 1;
       store_state :=
         {| todos := todos (store_state w) ++
                     [<["id" := VNum (store_id w + 1)]> (own_enumerable payload)] |};
       assigned := assigned w ++ [VNum (store_id w + 1)] |}.
Proof.
  unfold dispatch. rewrite manageTodo_ADD by apply AddTodo_type.
  rewrite AddTodo_todo. simpl. rewrite created_append. simpl.
  rewrite item_id_insert. reflexivity.
Qed.

(** C10. After any sequence of dispatches, with [w] the module and store
    reached:
    - every id in the collection, and every id ever given to a todo, is a
      number between 1 and the counter, and no id was given twice;
    - a call of the reducer moves the counter up by one when the action is
      an Add and leaves it where it was otherwise (Delete, unrecognized
      action, exception);
    - an Add with any payload, one with an [id] property of its own
      included, appends a todo whose id is the new value of the counter,
      and that value is different from every id given before, the ids of
      deleted todos included. *)
Theorem counter_ids_never_reused (actions : list value) :
  let w := run actions in
  Forall (issued (store_id w)) (ids (store_state w))
  ∧ Forall (issued (store_id w)) (assigned w)
  ∧ distinct (assigned w) = true
  ∧ (∀ st a id, fst (manageTodo st a id) = if is_add a then id + 1 else id)
  ∧ (∀ l i, store_id (dispatch w (DeleteTodo l i)) = store_id w)
  ∧ (∀ l payload,
       let w' := dispatch w (AddTodo l payload) in
       store_id w < store_id w'
       ∧ (∃ todo, todos (store_state w') = todos (store_state w) ++ [todo]
                  ∧ item_id todo = VNum (store_id w'))
       ∧ assigned w' = assigned w ++ [VNum (store_id w')]
       ∧ forallb (fun v => strict_neq v (VNum (store_id w'))) (assigned w) = true
       ∧ forallb (fun v => strict_neq v (VNum (store_id w')))
                 (ids (store_state w)) = true).
Proof.
  intros w. pose proof (store_inv_run actions) as [Hc Hids Hd Hlog Hld].
  fold w in Hc, Hids, Hd, Hlog, Hld.
  split; [exact Hids|]. split; [exact Hlog|]. split; [exact Hld|].
  split; [apply manageTodo_counter|]. split.
  - intros l i. unfold dispatch.
    rewrite manageTodo_DELETE by apply DeleteTodo_type. reflexivity.
  - intros l payload w'. unfold w'. rewrite dispatch_AddTodo. simpl.
    split; [lia|]. split.
    + eexists. split; [reflexivity | apply item_id_insert].
    + split; [reflexivity|].
      split; apply issued_all_not_next; assumption.
Qed.

(** The caller cannot choose the id: a payload that brings [id: 99] gets the
    counter's value all the same. *)
Example add_overwrites_supplied_id :
  let payload := VObj 2%positive {[ "id" := VNum 99; "text" := VStr "buy milk" ]} in
  manageTodo None (AddTodo 1%positive payload) 0
  = (1, Ok {| todos := [ {[ "id" := VNum 1; "text" := VStr "buy milk" ]} ] |}).
Proof. vm_compute. reflexivity. Qed.

End CounterIds.

(** ** Add followed by Delete *)

Section RoundTrip.
Import JS Counter.

(** C4 as stated fails: the counter does not look at the state it is given.
    With the counter at 0 and a collection that already holds a todo with
    id 1 (a collection without repeated ids), Add gives the new todo the id
    1 as well, and Delete(1) then removes both. *)
Lemma add_delete_loses_item :
  let s := {| todos := [ {[ "id" := VNum 1; "text" := VStr "buy milk" ]} ] |} in
  let add := AddTodo 1%positive (text_todo 2%positive "walk dog") in
  distinct (ids s) = true
  ∧ ∃ s1,
      manageTodo (Some s) add 0 = (1, Ok s1)
      ∧ item_id <$> created s s1 = [VNum 1]
      ∧ manageTodo (Some s1) (DeleteTodo 3%positive (VNum 1)) 1
        = (1, Ok {| todos := [] |})
      ∧ todos {| todos := [] |} ≠ todos s.
Proof.
  split; [reflexivity|]. eexists. split; [vm_compute; reflexivity|].
  split; [reflexivity|]. split; [reflexivity|]. discriminate.
Qed.

(** C4, amended. When no todo of the collection already has the id the Add
    is about to give (the counter plus one), Add(text) followed by Delete of
    the id given returns the state from before the Add. Every state the
    store reaches from the initial one is such a state. *)
Theorem add_then_delete_restores :
  (∀ (s : State) (l l' l'' : loc) (text : string) (id : Z),
     forallb (fun v => strict_neq v (VNum (id + 1))) (ids s) = true →
     ∃ s1,
       manageTodo (Some s) (AddTodo l (text_todo l' text)) id = (id + 1, Ok s1)
       ∧ item_id <$> created s s1 = [VNum (id + 1)]
       ∧ manageTodo (Some s1) (DeleteTodo l'' (VNum (id + 1))) (id + 1)
         = (id + 1, Ok s))
  ∧
  (∀ (actions : list value) (l l' l'' : loc) (text : string),
     let w := run actions in
     let w1 := dispatch w (AddTodo l (text_todo l' text)) in
     item_id <$> created (store_state w) (store_state w1) = [VNum (store_id w1)]
     ∧ store_state (dispatch w1 (DeleteTodo l'' (VNum (store_id w1))))
       = store_state w).
Proof.
  assert (Hfilter : ∀ (ts : list (gmap string value)) (m : gmap string value) n,
    forallb (fun v => strict_neq v (VNum n)) (item_id <$> ts) = true →
    List.filter (fun todo => strict_neq (item_id todo) (VNum n))
                (ts ++ [<["id" := VNum n]> m]) = ts).
  { intros ts m n H. rewrite List.filter_app. simpl.
    rewrite item_id_insert. unfold strict_neq at 2. simpl. rewrite Z.eqb_refl.
    simpl. rewrite (right_id_L [] (++)). apply filter_all.
    apply forallb_forall. intros x Hx. rewrite forallb_forall in H.
    apply H, list_elem_of_In, list_elem_of_fmap. exists x.
    split; [reflexivity | apply list_elem_of_In, Hx]. }
  split.
  - intros [ts] l l' l'' text id H. eexists. split; [|split].
    + rewrite manageTodo_ADD by apply AddTodo_type. reflexivity.
    + rewrite created_append. simpl. rewrite item_id_insert. reflexivity.
    + rewrite manageTodo_DELETE by apply DeleteTodo_type.
      rewrite DeleteTodo_id. simpl. rewrite Hfilter by exact H. reflexivity.
  - intros actions l l' l'' text w w1.
    pose proof (store_inv_run actions) as [_ Hids _ _ _]. fold w in Hids.
    unfold w1. rewrite dispatch_AddTodo. simpl. split.
    + rewrite created_append. simpl. rewrite item_id_insert. reflexivity.
    + unfold dispatch. rewrite manageTodo_DELETE by apply DeleteTodo_type.
      rewrite DeleteTodo_id. simpl.
      rewrite Hfilter by (apply issued_all_not_next, Hids).
      destruct (store_state w). reflexivity.
Qed.

Lemma add_then_delete_restores_witness :
  let s := {| todos := [ {[ "id" := VNum 1; "text" := VStr "buy milk" ]} ] |} in
  ∃ s1,
    manageTodo (Some s) (AddTodo 1%positive (text_todo 2%positive "")) 1
    = (1 + 1, Ok s1)
    ∧ item_id <$> created s s1 = [VNum (1 + 1)]
    ∧ manageTodo (Some s1) (DeleteTodo 3%positive (VNum (1 + 1))) (1 + 1)
      = (1 + 1, Ok s).
Proof.
  apply (proj1 add_then_delete_restores). reflexivity.
Defined.

End RoundTrip.

(** ** What the reducer takes from outside its arguments *)

Section Purity.
Import JS.

(** C3 as stated fails: two calls of the reducer with the same state and
    the same Add action, one after the other, return different states, and
    the first call has changed the counter. *)
Lemma same_arguments_different_results :
  let s := Counter.initialState in
  let add := Counter.AddTodo 1%positive (Counter.text_todo 2%positive "buy milk") in
  ∃ id1 s1 id2 s2,
    Counter.manageTodo (Some s) add 0 = (id1, Ok s1)
    ∧ Counter.manageTodo (Some s) add id1 = (id2, Ok s2)
    ∧ s1 ≠ s2
    ∧ id1 ≠ 0.
Proof.
  do 4 eexists. split; [vm_compute; reflexivity|].
  split; [vm_compute; reflexivity|]. split; [|discriminate].
  intros H. apply (f_equal Counter.ids) in H. vm_compute in H. discriminate.
Qed.

(** C3, amended. The reducer is a function of its two arguments and of the
    source of ids outside them: the module-level counter, or the call
    [uuid()] in the reducers of the lesson. On an action that is not an Add
    (Delete, unrecognized, or one whose discriminant cannot be read) the
    result does not depend on that source and the counter is not modified.
    On an Add the call increments the counter by one and the result is the
    state given followed by one todo, made of the payload's properties and
    the counter's new value as id. *)
Theorem reducer_pure_except_for_ids :
  (∀ st a id id',
     is_add a = false →
     snd (Counter.manageTodo st a id) = snd (Counter.manageTodo st a id')
     ∧ fst (Counter.manageTodo st a id) = id)
  ∧
  (∀ st a id,
     is_add a = true →
     Counter.manageTodo st a id =
       (id + 1,
        Ok {| Counter.todos :=
                Counter.todos (default Counter.initialState st) ++
                [<["id" := VNum (id + 1)]> (own_enumerable (prop a "todo"))] |}))
  ∧
  (∀ rt rt' st a,
     is_add a = false →
     Readme.manageTodo rt st a = Readme.manageTodo rt' st a).
Proof.
  split; [|split].
  - intros st a id id' Ha.
    split; [|rewrite manageTodo_counter, Ha; reflexivity].
    unfold is_add in Ha. destruct (get_prop a "type") as [ty|] eqn:Hty.
    + destruct (strict_eq ty (VStr "DELETE_TODO")) eqn:E2.
      { apply strict_eq_str in E2. subst ty.
        rewrite !(manageTodo_DELETE _ _ _ Hty). reflexivity. }
      rewrite !(manageTodo_other _ _ _ ty Hty); try reflexivity.
      all: intros ->; discriminate.
    + rewrite !(manageTodo_throws _ _ _ Hty). reflexivity.
  - intros st a id Ha. unfold is_add in Ha.
    destruct (get_prop a "type") as [ty|] eqn:Hty; [|discriminate].
    apply strict_eq_str in Ha. subst ty. apply manageTodo_ADD, Hty.
  - intros rt rt' st a Ha. unfold Readme.manageTodo, Readme.bind.
    unfold is_add in Ha. destruct (get_prop a "type") as [ty|]; [|reflexivity].
    rewrite Ha. reflexivity.
Qed.

Lemma reducer_pure_except_for_ids_witness :
  let s := {| Counter.todos := [ {[ "id" := VNum 1; "text" := VStr "buy milk" ]} ] |} in
  let del := Counter.DeleteTodo 3%positive (VNum 1) in
  (snd (Counter.manageTodo (Some s) del 1) = snd (Counter.manageTodo (Some s) del 7)
   ∧ fst (Counter.manageTodo (Some s) del 1) = 1)
  ∧ Counter.manageTodo (Some s)
      (Counter.AddTodo 1%positive (Counter.text_todo 2%positive "walk dog")) 1
    = (1 + 1,
       Ok {| Counter.todos :=
               Counter.todos s ++
               [<["id" := VNum (1 + 1)]>
                  (own_enumerable
                     (prop (Counter.AddTodo 1%positive
                              (Counter.text_todo 2%positive "walk dog")) "todo"))] |})
  ∧ Readme.manageTodo {| Readme.uuid := "u1"; Readme.fresh := 1%positive |}
      None (Readme.DeleteTodo 3%positive (VStr "u0"))
    = Readme.manageTodo {| Readme.uuid := "u2"; Readme.fresh := 2%positive |}
      None (Readme.DeleteTodo 3%positive (VStr "u0")).
Proof.
  destruct reducer_pure_except_for_ids as (Hother & Hadd & Hreadme).
  split; [|split].
  - apply Hother. reflexivity.
  - apply (Hadd (Some _)). reflexivity.
  - apply Hreadme. reflexivity.
Defined.

(** The lesson's reducers take the id from [uuid()]: the same state and the
    same Add give different results when [uuid()] returns different
    strings. *)
Lemma readme_add_depends_on_uuid :
  Readme.manageTodo {| Readme.uuid := "u1"; Readme.fresh := 1%positive |}
    None (Readme.AddTodo 1%positive 2%positive "buy milk")
  ≠ Readme.manageTodo {| Readme.uuid := "u2"; Readme.fresh := 1%positive |}
    None (Readme.AddTodo 1%positive 2%positive "buy milk").
Proof.
  intros H. vm_compute in H. discriminate.
Qed.

End Purity.

(** ** Delete from the component *)

Section Component.
Import JS Counter.

Lemma delete_keeps_exactly_the_others_witness :
  let s := {| todos := [ {[ "id" := VNum 1; "text" := VStr "buy milk" ]};
                         {[ "id" := VNum 2; "text" := VStr "walk dog" ]} ] |} in
  ∃ s', manageTodo (Some s) (DeleteTodo 1%positive (VNum 99)) 2 = (2, Ok s')
      ∧ s' = s.
Proof.
  destruct (proj1 delete_keeps_exactly_the_others
              {| todos := [ {[ "id" := VNum 1; "text" := VStr "buy milk" ]};
                            {[ "id" := VNum 2; "text" := VStr "walk dog" ]} ] |}
              1%positive (VNum 99) 2) as (s' & Hrun & _ & Hsame).
  exists s'. split; [exact Hrun|]. apply Hsame.
  intros x Hx. apply list_elem_of_In in Hx. simpl in Hx.
  destruct Hx as [<-|[<-|[]]]; reflexivity.
Defined.

(** A click on the button of a todo leaves the store with the todos whose
    id is not the one the component was given. *)
Lemma handleOnClick_removes (w : Store) (l : loc) (i : value) :
  todos (store_state (handleOnClick l i w))
  = List.filter (fun todo => strict_neq (item_id todo) i) (todos (store_state w))
  ∧ store_id (handleOnClick l i w) = store_id w.
Proof.
  unfold handleOnClick, dispatch.
  rewrite manageTodo_DELETE by apply DeleteTodo_type. rewrite DeleteTodo_id.
  split; reflexivity.
Qed.

End Component.

(** ** Filters and positions *)

Section FilterFacts.
Import JS.

Lemma strict_eq_refl v : strict_eq v v = true.
Proof.
  destruct v; simpl; try reflexivity.
  - destruct b; reflexivity.
  - apply Z.eqb_refl.
  - apply String.eqb_refl.
  - apply Pos.eqb_refl.
Qed.

Lemma strict_neq_sym a b : strict_neq a b = strict_neq b a.
Proof. unfold strict_neq. rewrite strict_eq_sym. reflexivity. Qed.

Lemma filter_swap {A} (p q : A → bool) (l : list A) :
  List.filter p (List.filter q l) = List.filter q (List.filter p l).
Proof.
  induction l as [|x l IH]; simpl; [reflexivity|].
  destruct (p x) eqn:Hp, (q x) eqn:Hq; simpl; rewrite ?Hp, ?Hq, IH; reflexivity.
Qed.

Lemma delete_beyond {A} (l : list A) (k : nat) :
  l !! k = None → delete k l = l.
Proof.
  revert k. induction l as [|x l IH]; intros [|k] H; simpl in *;
    try reflexivity; try discriminate.
  f_equal. apply IH, H.
Qed.

(** With keys that are pairwise different under [!==], the filter that
    drops the key of the element at position [k] drops that position and no
    other. *)
Lemma filter_key_delete {A} (key : A → value) (l : list A) (k : nat) (x : A) :
  distinct (key <$> l) = true →
  l !! k = Some x →
  List.filter (fun y => strict_neq (key y) (key x)) l = delete k l.
Proof.
  revert k. induction l as [|a l IH]; intros k Hd Hk; [destruct k; discriminate|].
  simpl in Hd. apply andb_true_iff in Hd as [Ha Hd].
  rewrite forallb_forall in Ha.
  destruct k as [|k]; simpl in *.
  - injection Hk as ->. unfold strict_neq at 1. rewrite strict_eq_refl. simpl.
    apply filter_all, forallb_forall. intros y Hy.
    rewrite strict_neq_sym. apply Ha.
    apply list_elem_of_In, list_elem_of_fmap. exists y.
    split; [reflexivity | apply list_elem_of_In, Hy].
  - rewrite Ha.
    + f_equal. apply IH; assumption.
    + apply list_elem_of_In, list_elem_of_fmap. exists x.
      split; [reflexivity | apply list_elem_of_lookup; eauto].
Qed.

(** An element the filter rejects makes the result shorter. *)
Lemma filter_rejects_one {A} (p : A → bool) (l : list A) (k : nat) (x : A) :
  l !! k = Some x → p x = false →
  (length (List.filter p l) + 1 ≤ length l)%nat.
Proof.
  revert k. induction l as [|a l IH]; intros k Hk Hp; [destruct k; discriminate|].
  destruct k as [|k]; simpl in *.
  - injection Hk as ->. rewrite Hp. pose proof (filter_length_le p l). lia.
  - specialize (IH k Hk Hp). destruct (p a); simpl; lia.
Qed.

Lemma filter_rejects_two {A} (p : A → bool) (l : list A) (j k : nat) (x y : A) :
  l !! j = Some x → l !! k = Some y → j ≠ k → p x = false → p y = false →
  (length (List.filter p l) + 2 ≤ length l)%nat.
Proof.
  revert j k. induction l as [|a l IH]; intros j k Hj Hk Hne Hx Hy;
    [destruct j; discriminate|].
  destruct j as [|j], k as [|k]; simpl in *.
  - contradiction.
  - injection Hj as ->. rewrite Hx.
    pose proof (filter_rejects_one p l k y Hk Hy). lia.
  - injection Hk as ->. rewrite Hy.
    pose proof (filter_rejects_one p l j x Hj Hx). lia.
  - assert (j ≠ k) as Hne' by congruence.
    specialize (IH j k Hj Hk Hne' Hx Hy). destruct (p a); simpl; lia.
Qed.

End FilterFacts.

(** ** More on the reducer with the counter *)

Section CounterMore.
Import JS Counter.

(** X1. Two Deletes commute: removing [a] and then [b] returns the state
    that removing [b] and then [a] returns, in the reducer with the counter
    and in the final reducer of the lesson. *)
Theorem deletes_commute :
  (∀ (s : State) (l l' : loc) (a b : value) (id : Z),
     ∃ sa sb sab,
       manageTodo (Some s) (DeleteTodo l a) id = (id, Ok sa)
       ∧ manageTodo (Some s) (DeleteTodo l' b) id = (id, Ok sb)
       ∧ manageTodo (Some sa) (DeleteTodo l' b) id = (id, Ok sab)
       ∧ manageTodo (Some sb) (DeleteTodo l a) id = (id, Ok sab))
  ∧
  (∀ (rt : Readme.Runtime) (s : Readme.State) (l l' : loc) (a b : value),
     ∃ sa sb sab,
       Readme.manageTodo rt (Some s) (Readme.DeleteTodo l a) = Ok sa
       ∧ Readme.manageTodo rt (Some s) (Readme.DeleteTodo l' b) = Ok sb
       ∧ Readme.manageTodo rt (Some sa) (Readme.DeleteTodo l' b) = Ok sab
       ∧ Readme.manageTodo rt (Some sb) (Readme.DeleteTodo l a) = Ok sab).
Proof.
  split.
  - intros s l l' a b id. do 3 eexists.
    rewrite !manageTodo_DELETE by apply DeleteTodo_type.
    rewrite !DeleteTodo_id. simpl.
    split; [reflexivity|]. split; [reflexivity|]. split; [reflexivity|].
    simpl. rewrite filter_swap. reflexivity.
  - intros rt s l l' a b. do 3 eexists.
    rewrite !readme_DELETE by apply readme_DeleteTodo_type.
    rewrite !readme_DeleteTodo_payload. simpl.
    split; [reflexivity|]. split; [reflexivity|]. split; [reflexivity|].
    simpl. rewrite filter_swap. reflexivity.
Qed.

(** X2. In every store reached from the initial one, the click handler of
    the todo at position [k] (which dispatches a Delete of that todo's id)
    removes the todo at position [k] and no other, and leaves the counter
    where it was. *)
Theorem click_removes_that_todo_only
    (actions : list value) (l : loc) (k : nat) (x : gmap string value) :
  todos (store_state (run actions)) !! k = Some x →
  todos (store_state (handleOnClick l (item_id x) (run actions)))
    = delete k (todos (store_state (run actions)))
  ∧ store_id (handleOnClick l (item_id x) (run actions))
    = store_id (run actions).
Proof.
  intros Hk. unfold handleOnClick, dispatch.
  rewrite manageTodo_DELETE by apply DeleteTodo_type. rewrite DeleteTodo_id.
  simpl. split; [|reflexivity].
  apply (filter_key_delete item_id); [|exact Hk].
  apply (inv_distinct _ (store_inv_run actions)).
Qed.

Lemma click_removes_that_todo_only_witness :
  let actions := [ AddTodo 1%positive (text_todo 2%positive "buy milk");
                   AddTodo 3%positive (text_todo 4%positive "walk dog");
                   AddTodo 5%positive (text_todo 6%positive "buy milk") ] in
  let x : gmap string value := {[ "id" := VNum 2; "text" := VStr "walk dog" ]} in
  todos (store_state (handleOnClick 7%positive (item_id x) (run actions)))
    = delete 1%nat (todos (store_state (run actions)))
  ∧ store_id (handleOnClick 7%positive (item_id x) (run actions))
    = store_id (run actions).
Proof.
  apply click_removes_that_todo_only. vm_compute. reflexivity.
Defined.

Lemma run_adds (actions : list value) :
  store_id (run actions) = Z.of_nat (length (List.filter is_add actions))
  ∧ assigned (run actions)
    = (fun n => VNum (Z.of_nat n)) <$> seq 1 (length (List.filter is_add actions)).
Proof.
  induction actions as [|a actions [IHid IHlog]] using rev_ind; [done|].
  rewrite run_snoc, List.filter_app, length_app. simpl.
  destruct (dispatch_cases (run actions) a)
    as [[Ha ->]|[(Ha & todo & _ & ->)|(Ha & p & ->)]]; rewrite Ha; simpl.
  - rewrite Nat.add_0_r. split; assumption.
  - rewrite IHid, IHlog. split; [lia|].
    rewrite Nat.add_1_r, seq_S, fmap_app. simpl. do 3 f_equal. lia.
  - rewrite Nat.add_0_r. split; assumption.
Qed.

Lemma ids_sublist_assigned (actions : list value) :
  sublist (ids (store_state (run actions))) (assigned (run actions)).
Proof.
  induction actions as [|a actions IH] using rev_ind; [constructor|].
  rewrite run_snoc.
  destruct (dispatch_cases (run actions) a)
    as [[_ ->]|[(_ & todo & Hid & ->)|(_ & p & ->)]]; simpl.
  - exact IH.
  - unfold ids in *. simpl. rewrite fmap_app. simpl. rewrite Hid.
    apply sublist_app; [exact IH | reflexivity].
  - unfold ids in *. simpl. etransitivity; [|exact IH].
    apply (fmap_sublist item_id), filter_sublist.
Qed.

(** X3. The k-th Add of a run gets the id k: after any sequence of
    dispatches the counter is the number of Adds among them, and the ids
    given so far are 1, 2, ..., up to that number, in this order. *)
Theorem ids_are_given_in_sequence (actions : list value) :
  let n := length (List.filter is_add actions) in
  store_id (run actions) = Z.of_nat n
  ∧ assigned (run actions) = (fun k => VNum (Z.of_nat k)) <$> seq 1 n.
Proof. apply run_adds. Qed.

(** X4. The collection keeps the order of creation: after any sequence of
    dispatches the ids of the todos, read from first to last, are a
    subsequence of 1, 2, ..., n, where n is the number of Adds dispatched. *)
Theorem collection_in_creation_order (actions : list value) :
  sublist (ids (store_state (run actions)))
          ((fun k => VNum (Z.of_nat k))
             <$> seq 1 (length (List.filter is_add actions))).
Proof.
  destruct (run_adds actions) as [_ <-]. apply ids_sublist_assigned.
Qed.



(** X6. An Add whose action has no [todo] (or has [undefined], [null], a
    boolean or a number there) does not throw: it appends a todo that has
    the id and nothing else. *)
Theorem add_without_payload (st : option State) (a : value) (id : Z) :
  is_add a = true →
  match prop a "todo" with
  | VUndefined | VNull | VBool _ | VNum _ => True
  | _ => False
  end →
  manageTodo st a id
  = (id + 1,
     Ok {| todos := todos (default initialState st)
                    ++ [ {[ "id" := VNum (id + 1) ]} ] |}).
Proof.
  intros Ha Hp. unfold is_add in Ha.
  destruct (get_prop a "type") as [ty|] eqn:Hty; [|discriminate].
  apply strict_eq_str in Ha. subst ty. rewrite (manageTodo_ADD _ _ _ Hty).
  destruct (prop a "todo"); simpl in *; try contradiction;
    rewrite insert_empty; reflexivity.
Qed.

Lemma add_without_payload_witness :
  manageTodo None (VObj 1%positive {[ "type" := VStr "ADD_TODO" ]}) 4
  = (4 + 1,
     Ok {| todos := todos (default initialState None)
                    ++ [ {[ "id" := VNum (4 + 1) ]} ] |}).
Proof.
  apply add_without_payload; [reflexivity | exact I].
Defined.

(** X7. In every store reached from the initial one, a Delete of anything
    that is not an id already given (a string such as ["1"], [undefined], a
    number the counter has not reached yet) removes nothing: ids are
    compared without conversion. *)
Theorem delete_of_unknown_id_is_noop
    (actions : list value) (l : loc) (i : value) :
  ¬ issued (store_id (run actions)) i →
  store_state (dispatch (run actions) (DeleteTodo l i))
  = store_state (run actions).
Proof.
  intros Hi. unfold dispatch.
  rewrite manageTodo_DELETE by apply DeleteTodo_type. rewrite DeleteTodo_id.
  simpl. pose proof (inv_ids _ (store_inv_run actions)) as Hids.
  destruct (store_state (run actions)) as [ts]. simpl in *. f_equal.
  apply filter_all, forallb_forall. intros x Hx.
  unfold ids in Hids. simpl in Hids. rewrite Forall_fmap, Forall_forall in Hids.
  apply list_elem_of_In in Hx. specialize (Hids x Hx). simpl in Hids.
  apply strict_neq_true. destruct (strict_eq (item_id x) i) eqn:E; [|reflexivity].
  destruct Hids as (n & Hn & Hrange). rewrite Hn in E.
  rewrite strict_eq_sym in E. apply strict_eq_num in E. subst i.
  exfalso. apply Hi. exists n. split; [reflexivity | exact Hrange].
Qed.

Lemma delete_of_unknown_id_is_noop_witness :
  let actions := [ AddTodo 1%positive (text_todo 2%positive "buy milk") ] in
  store_state (dispatch (run actions) (DeleteTodo 3%positive (VStr "1")))
  = store_state (run actions).
Proof.
  apply delete_of_unknown_id_is_noop. intros (n & Hn & _). discriminate.
Defined.

End CounterMore.

(** ** The lesson: first reducer, components, errors *)

Section Lesson.
Import JS.

Lemma texts_DELETE st a :
  get_prop a "type" = Ok (VStr "DELETE_TODO") →
  Texts.manageTodo st a =
    Ok {| Texts.todos :=
            List.filter (fun todo => strict_neq todo (prop a "payload"))
                        (Texts.todos (default Texts.initialState st)) |}.
Proof.
  intros H. unfold Texts.manageTodo, Readme.bind.
  rewrite H, (get_prop_total _ _ _ "payload" H). reflexivity.
Qed.

Lemma container_delete_type l v :
  get_prop (Container.delete l v) "type" = Ok (VStr "DELETE_TODO").
Proof. reflexivity. Qed.

Lemma container_delete_payload l v : prop (Container.delete l v) "payload" = v.
Proof. reflexivity. Qed.

Lemma texts_click l k s x :
  Texts.todos s !! k = Some x →
  Texts.todos (Container.click_text l k s)
  = List.filter (fun todo => strict_neq todo x) (Texts.todos s).
Proof.
  intros Hk. unfold Container.click_text, Container.renderTodos_texts,
    Container.mapStateToProps_texts.
  rewrite list_lookup_imap, Hk. simpl.
  unfold Texts.dispatch, Container.onClick_text. simpl.
  rewrite texts_DELETE by apply container_delete_type.
  rewrite container_delete_payload. reflexivity.
Qed.

(** X8. With the first reducer, Add(text) followed by Delete(text) returns
    what Delete(text) returns on the state from before the Add: the new
    todo goes, and so does every earlier todo with the same text. *)
Theorem texts_add_then_delete
    (s : Texts.State) (l l' l'' : loc) (text : string) :
  ∃ s1,
    Texts.manageTodo (Some s) (Readme.AddTodo l l' text) = Ok s1
    ∧ Texts.todos s1 = Texts.todos s ++ [VStr text]
    ∧ Texts.manageTodo (Some s1) (Container.delete l'' (VStr text))
      = Texts.manageTodo (Some s) (Container.delete l'' (VStr text)).
Proof.
  exists {| Texts.todos := Texts.todos s ++ [VStr text] |}.
  split; [reflexivity|]. split; [reflexivity|].
  rewrite !texts_DELETE by apply container_delete_type.
  rewrite container_delete_payload. simpl.
  rewrite List.filter_app. simpl. unfold strict_neq at 2.
  rewrite strict_eq_refl. simpl. rewrite (right_id_L [] (++)). reflexivity.
Qed.

(** X9. With the first reducer and components, a click on DELETE next to a
    todo whose text is also the text of another todo removes both: the
    collection gets shorter by two or more. *)
Theorem texts_click_removes_duplicates
    (s : Texts.State) (l : loc) (j k : nat) (x : value) :
  Texts.todos s !! j = Some x →
  Texts.todos s !! k = Some x →
  j ≠ k →
  (length (Texts.todos (Container.click_text l k s)) + 2
     ≤ length (Texts.todos s))%nat.
Proof.
  intros Hj Hk Hne. rewrite (texts_click _ _ _ _ Hk).
  apply (filter_rejects_two _ _ j k x x Hj Hk Hne);
    unfold strict_neq; rewrite strict_eq_refl; reflexivity.
Qed.

Lemma texts_click_removes_duplicates_witness :
  let s := {| Texts.todos := [VStr "buy milk"; VStr "walk dog"; VStr "buy milk"] |} in
  (length (Texts.todos (Container.click_text 1%positive 2 s)) + 2
     ≤ length (Texts.todos s))%nat.
Proof.
  apply (texts_click_removes_duplicates _ _ 0%nat 2%nat (VStr "buy milk"));
    [reflexivity | reflexivity | discriminate].
Defined.

(** X10. With the first reducer and components, when the texts of the
    collection are pairwise different, a click on DELETE at position [k]
    removes the todo at position [k] and no other; a position beyond the
    collection changes nothing. *)
Theorem texts_click_removes_that_todo_only
    (s : Texts.State) (l : loc) (k : nat) :
  distinct (Texts.todos s) = true →
  Texts.todos (Container.click_text l k s) = delete k (Texts.todos s).
Proof.
  intros Hd. destruct (Texts.todos s !! k) as [x|] eqn:Hk.
  - rewrite (texts_click _ _ _ _ Hk).
    apply (filter_key_delete (fun v => v)); [|exact Hk].
    rewrite list_fmap_id. exact Hd.
  - rewrite (delete_beyond _ _ Hk).
    unfold Container.click_text, Container.renderTodos_texts,
      Container.mapStateToProps_texts.
    rewrite list_lookup_imap, Hk. reflexivity.
Qed.

Lemma texts_click_removes_that_todo_only_witness :
  let s := {| Texts.todos := [VStr "buy milk"; VStr "walk dog"] |} in
  Texts.todos (Container.click_text 1%positive 0 s) = delete 0%nat (Texts.todos s).
Proof.
  apply texts_click_removes_that_todo_only. reflexivity.
Defined.

Lemma get_prop_TypeError v k :
  get_prop v k = TypeError ↔ v = VUndefined ∨ v = VNull.
Proof.
  destruct v; simpl; split; try discriminate; try tauto;
    intros [H|H]; discriminate.
Qed.

(** X11. An Add without a payload throws in the reducers of the lesson: for
    an action of type ['ADD_TODO'], the first reducer and the final one
    raise a TypeError exactly when [action.payload] is [undefined] or
    [null]. (The reducer with the counter does not throw there.) *)
Theorem lesson_add_throws_without_payload
    (rt : Readme.Runtime) (a : value) :
  is_add a = true →
  (∀ st, Texts.manageTodo st a = TypeError
         ↔ prop a "payload" = VUndefined ∨ prop a "payload" = VNull)
  ∧ (∀ st, Readme.manageTodo rt st a = TypeError
           ↔ prop a "payload" = VUndefined ∨ prop a "payload" = VNull).
Proof.
  intros Ha. unfold is_add in Ha.
  destruct (get_prop a "type") as [ty|] eqn:Hty; [|discriminate].
  apply strict_eq_str in Ha. subst ty.
  pose proof (get_prop_total _ _ _ "payload" Hty) as Hp.
  split; intros st.
  - unfold Texts.manageTodo, Readme.bind. rewrite Hty, Hp. simpl.
    rewrite <- get_prop_TypeError with (k := "text").
    destruct (get_prop (prop a "payload") "text"); split; congruence.
  - rewrite (readme_ADD _ _ _ Hty). unfold Readme.add_todo, Readme.bind.
    rewrite Hp. rewrite <- get_prop_TypeError with (k := "text").
    destruct (get_prop (prop a "payload") "text"); split; congruence.
Qed.

Lemma lesson_add_throws_without_payload_witness :
  Readme.manageTodo {| Readme.uuid := "u1"; Readme.fresh := 1%positive |}
    None (VObj 1%positive {[ "type" := VStr "ADD_TODO" ]}) = TypeError.
Proof.
  assert (Ha : is_add (VObj 1%positive {[ "type" := VStr "ADD_TODO" ]}) = true)
    by reflexivity.
  apply (proj2 (lesson_add_throws_without_payload
                  {| Readme.uuid := "u1"; Readme.fresh := 1%positive |}
                  (VObj 1%positive {[ "type" := VStr "ADD_TODO" ]}) Ha)).
  left. reflexivity.
Defined.

(** X12. With the final reducer and the updated components, in every state
    reached from the empty collection with [uuid()] returning a different
    string at every call, a click on DELETE at position [k] removes the
    todo at position [k] and no other; a position beyond the collection
    changes nothing. *)
Theorem container_click_removes_that_todo_only
    (calls : list (Readme.Runtime * value))
    (rt : Readme.Runtime) (l : loc) (k : nat) :
  NoDup ((fun c => Readme.uuid (fst c)) <$> calls) →
  Readme.todos (Container.click rt l k (Readme.run calls))
  = delete k (Readme.todos (Readme.run calls)).
Proof.
  intros Hnd. destruct (readme_run_ids calls Hnd) as [_ Hd].
  unfold Container.click, Container.renderTodos, Container.mapStateToProps.
  rewrite list_lookup_fmap.
  destruct (Readme.todos (Readme.run calls) !! k) as [x|] eqn:Hk; simpl.
  - unfold Readme.dispatch, Container.onClick. simpl.
    rewrite readme_DELETE by apply container_delete_type.
    rewrite container_delete_payload. simpl.
    apply (filter_key_delete Readme.item_id); [exact Hd | exact Hk].
  - symmetry. apply delete_beyond, Hk.
Qed.

Lemma container_click_removes_that_todo_only_witness :
  let calls := [ ({| Readme.uuid := "u1"; Readme.fresh := 1%positive |},
                  Readme.AddTodo 10%positive 11%positive "buy milk");
                 ({| Readme.uuid := "u2"; Readme.fresh := 2%positive |},
                  Readme.AddTodo 12%positive 13%positive "buy milk") ] in
  let rt := {| Readme.uuid := "u3"; Readme.fresh := 3%positive |} in
  Readme.todos (Container.click rt 14%positive 0 (Readme.run calls))
  = delete 0%nat (Readme.todos (Readme.run calls)).
Proof.
  apply container_click_removes_that_todo_only. compute_done.
Defined.

(** X13. The intermediate reducer removes by identity: when the payload of
    a Delete is the todo object at position [k] itself, and no object
    occurs twice in the collection, the todo at position [k] is removed and
    no other. *)
Theorem whole_item_delete_by_object
    (rt : Readme.Runtime) (s : Readme.State) (l : loc) (k : nat)
    (x : Readme.object) :
  distinct (Readme.to_value <$> Readme.todos s) = true →
  Readme.todos s !! k = Some x →
  Readme.manageTodo_whole rt (Some s) (Readme.DeleteTodo l (Readme.to_value x))
  = Ok {| Readme.todos := delete k (Readme.todos s) |}.
Proof.
  intros Hd Hk.
  rewrite readme_whole_DELETE by apply readme_DeleteTodo_type.
  rewrite readme_DeleteTodo_payload. simpl. do 2 f_equal.
  apply (filter_key_delete Readme.to_value); assumption.
Qed.

Lemma whole_item_delete_by_object_witness :
  let x := {| Readme.ref := 1%positive;
              Readme.props := {[ "id" := VStr "u1"; "text" := VStr "buy milk" ]} |} in
  let y := {| Readme.ref := 2%positive;
              Readme.props := {[ "id" := VStr "u2"; "text" := VStr "buy milk" ]} |} in
  Readme.manageTodo_whole {| Readme.uuid := "u3"; Readme.fresh := 3%positive |}
    (Some {| Readme.todos := [x; y] |})
    (Readme.DeleteTodo 4%positive (Readme.to_value y))
  = Ok {| Readme.todos := delete 1%nat [x; y] |}.
Proof.
  apply (whole_item_delete_by_object _ {| Readme.todos := _ |});
    reflexivity.
Defined.

End Lesson.
